(** * httpsms web client: the Vuex store and the new-message page

    A shallow embedding of [web/store/index.ts] (state, getters, mutations
    and actions of the store) and of the error handler of
    [web/pages/messages/index.vue], followed by the properties of the
    store that the specification states.

    Conventions.
    - A JavaScript value of type [T | null] (or an optional field) is an
      [option T]; [None] is [null] / [undefined].
    - Strings are [string]; [===] on strings is [String.eqb].
    - [Array.prototype.find] is [List.find]: the first element that
      satisfies the predicate.
    - An [async] function is a resumption: it runs until its next
      [await], hands control back, and is resumed later.  Tasks started
      together by [Promise.all] are interleaved at these points, in an
      order chosen by a schedule that the world carries. *)

From Stdlib Require Import Ascii List String Bool ZArith QArith Qround Lia.
From stdpp Require Import base gmap strings.
Import ListNotations.

#[local] Open Scope string_scope.
#[local] Open Scope list_scope.
#[local] Set Warnings "-register-all".

(** ** The models imported by the store *)

(** Modelled from the spec: the declaration of [~/models/phone] is not part
    of the sources at hand; the spec gives a phone as [{id, phone_number, ...}].
    The fields the store never reads are kept uninterpreted in [rest]. *)
Module Phone.
Record t : Type := mk
  { id : string;
    phone_number : string;
    rest : list (string * string) }.
End Phone.

(** Modelled from the spec: [~/models/message-thread] is missing too; a
    thread is [{id, owner, contact, ...}]. *)
Module MessageThread.
Record t : Type := mk
  { id : string;
    owner : string;
    contact : string;
    rest : list (string * string) }.
End MessageThread.

(** Modelled from the spec: [~/models/user], a profile record that carries
    the reference [active_phone_id] to the selected phone (possibly null). *)
Module User.
Record t : Type := mk
  { id : string;
    active_phone_id : option string;
    rest : list (string * string) }.
End User.

(** Modelled from the spec: [~/models/message] and [~/models/heartbeat];
    the store only moves these records around. *)
Module Message.
Record t : Type := mk { id : string; rest : list (string * string) }.
End Message.

Module Heartbeat.
Record t : Type := mk { id : string; rest : list (string * string) }.
End Heartbeat.

(** ** Types declared by the store *)

Definition defaultNotificationTimeout : Z := 3000.

Inductive NotificationType : Type := error | success | info.

Record Notification : Type := mkNotification
  { message : string;
    timeout : Z;
    active : bool;
    type : NotificationType }.

Module NotificationRequest.
Record t : Type := mk
  { message : string;
    type : NotificationType }.
End NotificationRequest.

Module AuthUser.
Record t : Type := mk { id : string }.
End AuthUser.

Record State : Type := mkState
  { owner : option string;
    loadingThreads : bool;
    loadingMessages : bool;
    authUser : option AuthUser.t;
    user : option User.t;
    phones : list Phone.t;
    threads : list MessageThread.t;
    threadId : option string;
    heartbeat : option Heartbeat.t;
    pooling : bool;
    notification : Notification;
    threadMessages : list Message.t }.

Module SendMessageRequest.
Record t : Type := mk
  { from : string;
    to : string;
    content : string }.
End SendMessageRequest.

(** [export const state = (): State => ({ ... })] *)
Definition state : State :=
  {| threads := [];
     threadId := None;
     heartbeat := None;
     loadingThreads := true;
     loadingMessages := true;
     pooling := false;
     threadMessages := [];
     phones := [];
     user := None;
     owner := None;
     authUser := None;
     notification :=
       {| active := false;
          message := "";
          type := success;
          timeout := defaultNotificationTimeout |} |}.

(** ** JavaScript operators used by the store *)

(** [a === b] where [a] is a string and [b] is a string or null. *)
Definition strict_eq (a : string) (b : option string) : bool :=
  match b with
  | Some s => String.eqb a s
  | None => false
  end.
Arguments strict_eq : simpl never.

(** [a?.id !== b?.id] compares two possibly undefined strings. *)
Definition strict_neq_opt (a b : option string) : bool :=
  match a, b with
  | Some x, Some y => negb (String.eqb x y)
  | None, None => false
  | _, _ => true
  end.
Arguments strict_neq_opt : simpl never.

(** [Math.floor(Math.random() * 100)], for the value [x] that
    [Math.random()] returned.  The product is taken exactly. *)
Definition random_below_100 (x : Q) : Z := Qfloor (x * 100).

(** ** Field assignments [state.f = v] *)

Definition set_owner (v : option string) (s : State) : State :=
  mkState v (loadingThreads s) (loadingMessages s) (authUser s) (user s)
    (phones s) (threads s) (threadId s) (heartbeat s) (pooling s)
    (notification s) (threadMessages s).

Definition set_loadingThreads (v : bool) (s : State) : State :=
  mkState (owner s) v (loadingMessages s) (authUser s) (user s)
    (phones s) (threads s) (threadId s) (heartbeat s) (pooling s)
    (notification s) (threadMessages s).

Definition set_loadingMessages (v : bool) (s : State) : State :=
  mkState (owner s) (loadingThreads s) v (authUser s) (user s)
    (phones s) (threads s) (threadId s) (heartbeat s) (pooling s)
    (notification s) (threadMessages s).

Definition set_authUser (v : option AuthUser.t) (s : State) : State :=
  mkState (owner s) (loadingThreads s) (loadingMessages s) v (user s)
    (phones s) (threads s) (threadId s) (heartbeat s) (pooling s)
    (notification s) (threadMessages s).

Definition set_user (v : option User.t) (s : State) : State :=
  mkState (owner s) (loadingThreads s) (loadingMessages s) (authUser s) v
    (phones s) (threads s) (threadId s) (heartbeat s) (pooling s)
    (notification s) (threadMessages s).

Definition set_phones (v : list Phone.t) (s : State) : State :=
  mkState (owner s) (loadingThreads s) (loadingMessages s) (authUser s)
    (user s) v (threads s) (threadId s) (heartbeat s) (pooling s)
    (notification s) (threadMessages s).

Definition set_threads (v : list MessageThread.t) (s : State) : State :=
  mkState (owner s) (loadingThreads s) (loadingMessages s) (authUser s)
    (user s) (phones s) v (threadId s) (heartbeat s) (pooling s)
    (notification s) (threadMessages s).

Definition set_threadId (v : option string) (s : State) : State :=
  mkState (owner s) (loadingThreads s) (loadingMessages s) (authUser s)
    (user s) (phones s) (threads s) v (heartbeat s) (pooling s)
    (notification s) (threadMessages s).

Definition set_heartbeat (v : option Heartbeat.t) (s : State) : State :=
  mkState (owner s) (loadingThreads s) (loadingMessages s) (authUser s)
    (user s) (phones s) (threads s) (threadId s) v (pooling s)
    (notification s) (threadMessages s).

Definition set_pooling (v : bool) (s : State) : State :=
  mkState (owner s) (loadingThreads s) (loadingMessages s) (authUser s)
    (user s) (phones s) (threads s) (threadId s) (heartbeat s) v
    (notification s) (threadMessages s).

Definition set_notification (v : Notification) (s : State) : State :=
  mkState (owner s) (loadingThreads s) (loadingMessages s) (authUser s)
    (user s) (phones s) (threads s) (threadId s) (heartbeat s) (pooling s)
    v (threadMessages s).

Definition set_threadMessages (v : list Message.t) (s : State) : State :=
  mkState (owner s) (loadingThreads s) (loadingMessages s) (authUser s)
    (user s) (phones s) (threads s) (threadId s) (heartbeat s) (pooling s)
    (notification s) v.

(** ** Exceptions *)

(** The body of the error response of the send-message call:
    [{data: {content?: string[], to?: string[], from?: string[]}}]. *)
Module ValidationErrors.
Record t : Type := mk
  { content : option (list string);
    to : option (list string);
    from : option (list string) }.
End ValidationErrors.

Inductive Exn : Type :=
| ThreadNotFound (threadId : option string)
    (* new Error(`cannot find thread with id ${state.threadId}`) *)
| TypeError
    (* a property read on null *)
| AxiosError (data : ValidationErrors.t)
    (* a rejected request *).

(** The text of the error that [getThread] throws. *)
Definition exn_message (e : Exn) : string :=
  match e with
  | ThreadNotFound (Some i) => "cannot find thread with id " ++ i
  | ThreadNotFound None => "cannot find thread with id null"
  | TypeError => "TypeError"
  | AxiosError _ => "Request failed"
  end.

(** ** Getters *)

(** [process.env], as far as the store reads it; [as string] takes every
    variable to be set. *)
Module Env.
Record t : Type := mk
  { APP_URL : string;
    APP_DOWNLOAD_URL : string;
    APP_DOCUMENTATION_URL : string;
    APP_GITHUB_URL : string;
    APP_NAME : string }.
End Env.

Record AppData : Type := mkAppData
  { url : string;
    name : string;
    appDownloadUrl : string;
    documentationUrl : string;
    githubUrl : string }.

(** [s[i] === c] *)
Definition char_at_is (s : string) (i : nat) (c : Ascii.ascii) : bool :=
  match String.get i s with
  | Some d => Ascii.eqb d c
  | None => false
  end.

Module getters.

(** [getAppData()]; the environment it reads is its argument here. *)
Definition getAppData (env : Env.t) : AppData :=
  let url := Env.APP_URL env in
  let url :=
    if (0 <? String.length url)%nat
       && char_at_is url (String.length url - 1) "/"%char
    then String.substring 0 (String.length url - 1) url
    else url in
  {| url := url;
     appDownloadUrl := Env.APP_DOWNLOAD_URL env;
     documentationUrl := Env.APP_DOCUMENTATION_URL env;
     githubUrl := Env.APP_GITHUB_URL env;
     name := Env.APP_NAME env |}.

Definition getThreads (state : State) : list MessageThread.t :=
  threads state.

Definition hasThreadId (state : State) (threadId : string) : bool :=
  match find (fun x => String.eqb (MessageThread.id x) threadId)
             (threads state) with
  | Some _ => true
  | None => false
  end.

Definition getAuthUser (state : State) : option AuthUser.t :=
  authUser state.

Definition getUser (state : State) : option User.t := user state.

Definition getOwner (state : State) : option string := owner state.

Definition getActivePhone (state : State) : option Phone.t :=
  find (fun x => strict_eq (Phone.phone_number x) (owner state))
       (phones state).

Definition getPhones (state : State) : list Phone.t := phones state.

Definition hasThread (state : State) : bool :=
  match threadId state with
  | Some _ => negb (loadingThreads state)
  | None => false
  end.

Definition getLoadingThreads (state : State) : bool :=
  loadingThreads state.

Definition getLoadingMessages (state : State) : bool :=
  loadingMessages state.

Definition getThreadMessages (state : State) : list Message.t :=
  threadMessages state.

Definition getThread (state : State) : Exn + MessageThread.t :=
  match find (fun x => strict_eq (MessageThread.id x) (threadId state))
             (threads state) with
  | None => inl (ThreadNotFound (threadId state))
  | Some thread => inr thread
  end.

Definition getHeartbeat (state : State) : option Heartbeat.t :=
  heartbeat state.

Definition getPolling (state : State) : bool := pooling state.

Definition getNotification (state : State) : Notification :=
  notification state.

End getters.

(** ** Mutations *)

Module mutations.

Definition setThreads (state : State) (payload : list MessageThread.t)
  : State :=
  set_loadingThreads false (set_threads payload state).

Definition setThreadId (state : State) (payload : option string) : State :=
  set_threadId payload state.

Definition setThreadMessages (state : State) (payload : list Message.t)
  : State :=
  set_loadingMessages false (set_threadMessages payload state).

Definition setHeartbeat (state : State) (payload : option Heartbeat.t)
  : State :=
  set_heartbeat payload state.

Definition setPooling (state : State) (payload : bool) : State :=
  set_pooling payload state.

Definition setAuthUser (state : State) (payload : option AuthUser.t)
  : State :=
  set_authUser payload state.

(** [random] is the value that the call of [Math.random()] returns. *)
Definition setNotification (random : Q) (state : State)
    (notification : NotificationRequest.t) : State :=
  set_notification
    {| active := true;
       message := NotificationRequest.message notification;
       type := NotificationRequest.type notification;
       timeout := random_below_100 random + defaultNotificationTimeout |}
    state.

Definition disableNotification (state : State) : State :=
  set_notification
    {| message := message (notification state);
       timeout := timeout (notification state);
       active := false;
       type := type (notification state) |}
    state.

Definition setPhones (state : State) (payload : list Phone.t) : State :=
  let state1 := set_phones payload state in
  let owner :=
    find (fun x => strict_eq (Phone.phone_number x) (owner state1))
         payload in
  match owner, phones state1 with
  | None, first :: _ => set_owner (Some (Phone.phone_number first)) state1
  | _, _ => state1
  end.

Definition setUser (state : State) (payload : option User.t) : State :=
  set_user payload state.

Definition setOwner (state : State) (payload : string) : State :=
  set_loadingMessages true
    (set_loadingThreads true (set_owner (Some payload) state)).

End mutations.
Arguments mutations.setPhones : simpl never.

(** A committed mutation, [context.commit(name, payload)]. *)
Inductive Mutation : Type :=
| MSetThreads (payload : list MessageThread.t)
| MSetThreadId (payload : option string)
| MSetThreadMessages (payload : list Message.t)
| MSetHeartbeat (payload : option Heartbeat.t)
| MSetPooling (payload : bool)
| MSetAuthUser (payload : option AuthUser.t)
| MSetNotification (payload : NotificationRequest.t)
| MDisableNotification
| MSetPhones (payload : list Phone.t)
| MSetUser (payload : option User.t)
| MSetOwner (payload : string).

(** The handler that the store runs for a committed mutation; [random] is
    what [Math.random()] returns should the handler call it. *)
Definition mutate (random : Q) (m : Mutation) (s : State) : State :=
  match m with
  | MSetThreads p => mutations.setThreads s p
  | MSetThreadId p => mutations.setThreadId s p
  | MSetThreadMessages p => mutations.setThreadMessages s p
  | MSetHeartbeat p => mutations.setHeartbeat s p
  | MSetPooling p => mutations.setPooling s p
  | MSetAuthUser p => mutations.setAuthUser s p
  | MSetNotification p => mutations.setNotification random s p
  | MDisableNotification => mutations.disableNotification s
  | MSetPhones p => mutations.setPhones s p
  | MSetUser p => mutations.setUser s p
  | MSetOwner p => mutations.setOwner s p
  end.

(** ** The world around the store *)

(** A dispatched action, [context.dispatch(name, payload)]. *)
Inductive Action : Type :=
| ALoadThreads
| ALoadPhones (force : bool)
| ALoadUser
| AGetHeartbeat
| ASetPolling (status : bool)
| ASendMessage (request : SendMessageRequest.t)
| ASetThreadId (threadId : option string)
| AAddNotification (request : NotificationRequest.t)
| ADisableNotification
| ALoadThreadMessages (threadId : option string)
| ASetAuthUser (user : option AuthUser.t)
| ASetOwner (owner : string).

(** A request handed to axios. *)
Inductive Request : Type :=
| GET_message_threads (owner : option string)
| GET_phones (limit : Z)
| GET_users_me
| PUT_users_me (active_phone_id : string)
| GET_heartbeats (limit : Z) (owner : option string)
| POST_messages_send (request : SendMessageRequest.t)
| GET_messages (contact owner : string).

(** What an observer of the store and of the network sees, in order. *)
Inductive Event : Type :=
| EDispatch (a : Action)
| ECommit (m : Mutation)
| ERequest (r : Request).

(** The remote service: the answer to the [n]-th request the client has
    issued, either a rejection or [response.data.data]. *)
Definition Response (T : Type) : Type := (Exn + T)%type.

Record Gateway : Type := mkGateway
  { message_threads : nat -> option string -> Response (list MessageThread.t);
    phones_list : nat -> Z -> Response (list Phone.t);
    users_me : nat -> Response User.t;
    users_me_put : nat -> string -> Response User.t;
    heartbeats : nat -> Z -> option string -> Response (list Heartbeat.t);
    messages_send : nat -> SendMessageRequest.t -> Response unit;
    messages : nat -> string -> string -> Response (list Message.t) }.

Record World : Type := mkWorld
  { store : State;
    journal : list Event;       (* events so far, oldest first *)
    issued : nat;               (* number of requests issued so far *)
    schedule : list bool;       (* which of two pending tasks resumes next *)
    randoms : list Q }.         (* the coming results of Math.random() *)

Definition with_store (f : State -> State) (w : World) : World :=
  mkWorld (f (store w)) (journal w) (issued w) (schedule w) (randoms w).

Definition record (e : Event) (w : World) : World :=
  mkWorld (store w) (journal w ++ [e]) (issued w) (schedule w) (randoms w).

(** The next scheduling decision; once the schedule is used up the first
    task goes first. *)
Definition pick (w : World) : bool * World :=
  match schedule w with
  | [] => (true, w)
  | b :: rest =>
      (b, mkWorld (store w) (journal w) (issued w) rest (randoms w))
  end.

(** The next result of [Math.random()]. *)
Definition draw (w : World) : Q * World :=
  match randoms w with
  | [] => (0%Q, w)
  | x :: rest =>
      (x, mkWorld (store w) (journal w) (issued w) (schedule w) rest)
  end.

(** ** Promises as resumptions *)

Inductive outcome (A : Type) : Type :=
| Resolved (a : A)
| Rejected (e : Exn).
Arguments Resolved {A} a.
Arguments Rejected {A} e.

(** A started task is settled, or waits to be resumed. *)
Inductive Step (A : Type) : Type :=
| Fin (o : outcome A)
| Susp (k : World -> World * Step A).
Arguments Fin {A} o.
Arguments Susp {A} k.

Definition Task (A : Type) : Type := World -> World * Step A.

Definition ret {A} (a : A) : Task A := fun w => (w, Fin (Resolved a)).

Definition throw {A} (e : Exn) : Task A := fun w => (w, Fin (Rejected e)).

Fixpoint bind_step {A B} (s : Step A) (f : A -> Task B) : Task B :=
  fun w =>
    match s with
    | Fin (Resolved a) => f a w
    | Fin (Rejected e) => (w, Fin (Rejected e))
    | Susp k =>
        (w, Susp (fun w1 => let (w2, s') := k w1 in bind_step s' f w2))
    end.

Definition bind {A B} (t : Task A) (f : A -> Task B) : Task B :=
  fun w => let (w1, s) := t w in bind_step s f w1.

Declare Scope task_scope.
Delimit Scope task_scope with task.
Notation "x <- t1 ;; t2" := (bind t1 (fun x => t2))
  (at level 100, t1 at next level, right associativity) : task_scope.
Notation "t1 ;; t2" := (bind t1 (fun _ => t2))
  (at level 100, right associativity) : task_scope.
#[local] Open Scope task_scope.

(** [await v] for a value [v] that is not a pending promise: the function
    is suspended and resumed with nothing else changed by itself. *)
Definition tick : Task unit :=
  fun w => (w, Susp (fun w1 => (w1, Fin (Resolved tt)))).

(** [context.getters.g] *)
Definition gets {A} (g : State -> A) : Task A :=
  fun w => (w, Fin (Resolved (g (store w)))).

(** A getter that may throw. *)
Definition gets_or_throw {A} (g : State -> Exn + A) : Task A :=
  fun w =>
    match g (store w) with
    | inl e => (w, Fin (Rejected e))
    | inr a => (w, Fin (Resolved a))
    end.

Definition emit (e : Event) : Task unit :=
  fun w => (record e w, Fin (Resolved tt)).

(** [context.commit(m)]: the handler runs at once. *)
Definition commit (m : Mutation) : Task unit :=
  fun w =>
    match m with
    | MSetNotification _ =>
        let (x, w1) := draw w in
        (record (ECommit m) (with_store (mutate x m) w1), Fin (Resolved tt))
    | _ => (record (ECommit m) (with_store (mutate 0 m) w), Fin (Resolved tt))
    end.

(** [await axios.get(...)] and the like: the request is issued at once, its
    answer is delivered when the task is resumed. *)
Definition http {T} (r : Request) (answer : nat -> Response T) : Task T :=
  fun w =>
    let n := issued w in
    (mkWorld (store w) (journal w ++ [ERequest r]) (S n) (schedule w)
       (randoms w),
     Susp (fun w1 =>
       (w1, Fin (match answer n with
                 | inl e => Rejected e
                 | inr v => Resolved v
                 end)))).

(** What is left of a [Promise.all] once one of its tasks is rejected with
    [e]: the other task, if pending, keeps running; the rejection [e] is
    the outcome, reported here once every task has settled. *)
Fixpoint drain {A B} (e : Exn) (s : Step A) : Step B :=
  match s with
  | Fin _ => Fin (Rejected e)
  | Susp k => Susp (fun w => let (w1, s') := k w in (w1, drain e s'))
  end.

(** Two started tasks, joined as [Promise.all] joins them: the result is
    the pair of results, or the first rejection.  Of two pending tasks the
    schedule says which one is resumed. *)
Fixpoint join {A B} (p : Step A) : Step B -> Step (A * B) :=
  fix join_r (q : Step B) : Step (A * B) :=
    match p, q with
    | Fin (Rejected e), _ => drain e q
    | Fin (Resolved a), Fin (Resolved b) => Fin (Resolved (a, b))
    | Fin (Resolved _), Fin (Rejected e) => Fin (Rejected e)
    | Fin (Resolved _), Susp kq =>
        Susp (fun w => let (w1, q') := kq w in (w1, join_r q'))
    | Susp _, Fin (Rejected e) => drain e p
    | Susp kp, Fin (Resolved _) =>
        Susp (fun w => let (w1, p') := kp w in (w1, join p' q))
    | Susp kp, Susp kq =>
        Susp (fun w =>
          let (b, w0) := pick w in
          if b then let (w1, p') := kp w0 in (w1, join p' q)
          else let (w1, q') := kq w0 in (w1, join_r q'))
    end.

(** [await Promise.all([p, q])]: both are started, [p] first, each running
    to its first suspension; then they are resumed as scheduled. *)
Definition all2 {A B} (p : Task A) (q : Task B) : Task (A * B) :=
  fun w =>
    let (w1, sp) := p w in
    let (w2, sq) := q w1 in
    (w2, join sp sq).

(** Resume a task until it is settled. *)
Fixpoint settle {A} (s : Step A) (w : World) : World * outcome A :=
  match s with
  | Fin o => (w, o)
  | Susp k => let (w1, s') := k w in settle s' w1
  end.

(** Run a task alone, from start to end. *)
Definition run {A} (t : Task A) (w : World) : World * outcome A :=
  let (w1, s) := t w in settle s w1.

(** What follows a finished run. *)
Definition and_then {A B} (r : World * outcome A) (f : A -> Task B)
  : World * outcome B :=
  match r with
  | (w1, Resolved a) => run (f a) w1
  | (w1, Rejected e) => (w1, Rejected e)
  end.

(** The events that happened between two worlds. *)
Definition events_since (w w' : World) : list Event :=
  skipn (length (journal w)) (journal w').

(** ** Actions *)

Module actions.
Section WithGateway.

Variable axios : Gateway.

(** [context.dispatch(a)] of the action whose body is [body]. *)
Definition dispatched (a : Action) (body : Task unit) : Task unit :=
  emit (EDispatch a) ;; body.

Definition loadThreads : Task unit :=
  o <- gets getters.getOwner ;;
  match o with
  | None =>
      commit (MSetThreads []) ;;
      tick ;;
      ret tt
  | Some _ =>
      o' <- gets getters.getOwner ;;
      response <- http (GET_message_threads o') (fun n => message_threads axios n o') ;;
      commit (MSetThreads response) ;;
      tick
  end.

(** A call without argument leaves [force] undefined, which [!force]
    treats as [false]. *)
Definition loadPhones (force : bool) : Task unit :=
  ps <- gets getters.getPhones ;;
  if (0 <? length ps)%nat && negb force then ret tt
  else
    response <- http (GET_phones 100) (fun n => phones_list axios n 100%Z) ;;
    commit (MSetPhones response).

Definition loadUser : Task unit :=
  response <- http GET_users_me (users_me axios) ;;
  commit (MSetUser (Some response)).

Definition getHeartbeat : Task unit :=
  o <- gets getters.getOwner ;;
  response <- http (GET_heartbeats 1 o) (fun n => heartbeats axios n 1%Z o) ;;
  match response with
  | first :: _ => commit (MSetHeartbeat (Some first))
  | [] => commit (MSetHeartbeat None)
  end.

Definition setPolling (status : bool) : Task unit :=
  commit (MSetPooling status).

Definition setThreadId (threadId : option string) : Task unit :=
  commit (MSetThreadId threadId).

Definition addNotification (request : NotificationRequest.t) : Task unit :=
  commit (MSetNotification request).

Definition disableNotification : Task unit :=
  commit MDisableNotification.

Definition loadThreadMessages (threadId : option string) : Task unit :=
  commit (MSetThreadId threadId) ;;
  tick ;;
  thread1 <- gets_or_throw getters.getThread ;;
  thread2 <- gets_or_throw getters.getThread ;;
  response <-
    http (GET_messages (MessageThread.contact thread1)
                       (MessageThread.owner thread2))
         (fun n => messages axios n (MessageThread.contact thread1)
                                    (MessageThread.owner thread2)) ;;
  commit (MSetThreadMessages response).

Definition sendMessage (request : SendMessageRequest.t) : Task unit :=
  http (POST_messages_send request)
       (fun n => messages_send axios n request) ;;
  thread <- gets_or_throw getters.getThread ;;
  all2
    (dispatched (ALoadThreadMessages (Some (MessageThread.id thread)))
       (loadThreadMessages (Some (MessageThread.id thread))))
    (dispatched ALoadThreads loadThreads) ;;
  ret tt.

Definition setOwner (owner : string) : Task unit :=
  commit (MSetOwner owner) ;;
  tick ;;
  phone <- gets getters.getActivePhone ;;
  match phone with
  | None => ret tt
  | Some phone =>
      response <-
        http (PUT_users_me (Phone.id phone))
             (fun n => users_me_put axios n (Phone.id phone)) ;;
      commit (MSetUser (Some response))
  end.

(** [getPhones.find((x) => x.id === getUser.active_phone_id)]: the
    callback reads a property of [getUser], which throws when the
    profile is null and there is a phone to test. *)
Definition find_preferred_phone (s : State) : Exn + option Phone.t :=
  match getters.getPhones s, getters.getUser s with
  | [], _ => inr None
  | _ :: _, None => inl TypeError
  | ps, Some u =>
      inr (find (fun x => strict_eq (Phone.id x) (User.active_phone_id u))
                ps)
  end.

Definition setAuthUser (user : option AuthUser.t) : Task unit :=
  current <- gets getters.getAuthUser ;;
  let userChanged :=
    strict_neq_opt (option_map AuthUser.id user)
                   (option_map AuthUser.id current) in
  commit (MSetAuthUser user) ;;
  tick ;;
  match userChanged, user with
  | true, Some _ =>
      all2 (dispatched ALoadUser loadUser)
           (dispatched (ALoadPhones false) (loadPhones false)) ;;
      phone <- gets_or_throw find_preferred_phone ;;
      match phone with
      | Some phone =>
          dispatched (ASetOwner (Phone.phone_number phone))
            (setOwner (Phone.phone_number phone))
      | None => ret tt
      end
  | _, _ => ret tt
  end.

(** [store.dispatch(a)] *)
Definition dispatch (a : Action) : Task unit :=
  dispatched a
    match a with
    | ALoadThreads => loadThreads
    | ALoadPhones force => loadPhones force
    | ALoadUser => loadUser
    | AGetHeartbeat => getHeartbeat
    | ASetPolling status => setPolling status
    | ASendMessage request => sendMessage request
    | ASetThreadId threadId => setThreadId threadId
    | AAddNotification request => addNotification request
    | ADisableNotification => disableNotification
    | ALoadThreadMessages threadId => loadThreadMessages threadId
    | ASetAuthUser user => setAuthUser user
    | ASetOwner owner => setOwner owner
    end.

End WithGateway.
End actions.

(** ** The new-message page, [pages/messages/index.vue] *)

(** [s.substring(n)] *)
Fixpoint string_drop (n : nat) (s : string) : string :=
  match n, s with
  | O, _ => s
  | S n', String _ s' => string_drop n' s'
  | S _, EmptyString => EmptyString
  end.

(** [s.replace(pattern, replacement)] for a string pattern: the first
    occurrence of [pattern] in [s] is replaced, the rest of [s] is kept.
    (A [$] in the replacement would be special; the page's has none.) *)
Fixpoint replace (pattern replacement s : string) {struct s} : string :=
  if String.prefix pattern s
  then replacement ++ string_drop (String.length pattern) s
  else match s with
       | EmptyString => EmptyString
       | String c s' => String c (replace pattern replacement s')
       end.

Module messages_page.

(** [data()] of the component. *)
Record Data : Type := mkData
  { sending : bool;
    formPhoneNumber : string;
    formContent : string;
    errors : gmap string (list string) }.

(** [this.$store.dispatch('addNotification', {message, type})] as the
    page issues it; the message is [undefined] ([None]) when it is read
    from an empty array. *)
Record Dispatched : Type := mkDispatched
  { d_message : option string;
    d_type : NotificationType }.

(** The [.catch((axiosError) => ...)] handler of [sendMessage], applied
    to [axiosError.response.data.data]: the new component data and the
    notifications dispatched to the store. *)
Definition sendMessage_catch (this : Data) (data : ValidationErrors.t)
  : Data * list Dispatched :=
  let errors0 : gmap string (list string) := ∅ in
  let errors1 :=
    match ValidationErrors.content data with
    | Some c => <["content" := c]> errors0
    | None => errors0
    end in
  let errors2 :=
    match ValidationErrors.to data with
    | Some t =>
        <["to" := map (fun x => replace "to field" "phone number field" x) t]>
          errors1
    | None => errors1
    end in
  let notifications :=
    match ValidationErrors.from data with
    | Some f => [ {| d_message := nth_error f 0; d_type := error |} ]
    | None => []
    end in
  (mkData (sending this) (formPhoneNumber this) (formContent this) errors2,
   notifications).

(** [:error="errors.has(field)"] and [:error-messages="errors.get(field)"]
    of a text field of the form. *)
Definition field_has_error (this : Data) (field : string) : bool :=
  match errors this !! field with
  | Some _ => true
  | None => false
  end.

Definition field_error_messages (this : Data) (field : string)
  : option (list string) :=
  errors this !! field.

(** The body of the request that the page posts; [from] is the owner of
    the store, which may be null. *)
Record PostBody : Type := mkPostBody
  { to : string;
    from : option string;
    content : string }.

(** What the page does to the outside. *)
Inductive Effect : Type :=
| Post (body : PostBody)              (* axios.post('/v1/messages/send', body) *)
| Dispatch (d : Dispatched)           (* this.$store.dispatch('addNotification', d) *)
| RouterPush (name : string).         (* this.$router.push({ name }) *)

(** How the posted request ends: accepted, or rejected with an error whose
    [response] may be missing (no answer from the server). *)
Inductive PostResult : Type :=
| Accepted
| Refused (response : option ValidationErrors.t).

(** [sendMessage()] up to the call of [axios.post]: the errors are reset,
    the form is marked as sending, the request is issued. *)
Definition sendMessage_begin (this : Data) (getOwner : option string)
  : Data * PostBody :=
  (mkData true (formPhoneNumber this) (formContent this) ∅,
   {| to := formPhoneNumber this;
      from := getOwner;
      content := formContent this |}).

(** The [.then(() => ...)] handler. *)
Definition sendMessage_then (this : Data) : Data * list Effect :=
  (this,
   [Dispatch {| d_message := Some "Message Sent!"; d_type := success |};
    RouterPush "threads"]).

(** The [.finally(() => ...)] handler. *)
Definition sendMessage_finally (this : Data) : Data :=
  mkData false (formPhoneNumber this) (formContent this) (errors this).

(** [sendMessage()] from the click to the end of the promise chain: the
    component data, what the page did, and whether the chain ended
    rejected.  Without a response the catch handler throws at
    [response.data], before it assigns anything. *)
Definition sendMessage (this : Data) (getOwner : option string)
    (result : PostResult) : Data * list Effect * bool :=
  let (this1, body) := sendMessage_begin this getOwner in
  match result with
  | Accepted =>
      let (this2, effects) := sendMessage_then this1 in
      (sendMessage_finally this2, Post body :: effects, false)
  | Refused (Some data) =>
      let (this2, sent) := sendMessage_catch this1 data in
      (sendMessage_finally this2, Post body :: map Dispatch sent, false)
  | Refused None =>
      (sendMessage_finally this1, [Post body], true)
  end.

End messages_page.

(** ** The scenarios of the specification *)

Module scenario.

Definition phoneA : Phone.t := Phone.mk "1" "+1A" [].
Definition phoneB : Phone.t := Phone.mk "2" "+1B" [].

Definition thread1 : MessageThread.t :=
  MessageThread.mk "t1" "+1A" "+1B" [].

Definition message1 : Message.t := Message.mk "m1" [("content", "hi")].

Definition profile : User.t := User.mk "u1" (Some "2") [].

(** A service that accepts every request. *)
Definition service : Gateway :=
  {| message_threads := fun _ _ => inr [thread1];
     phones_list := fun _ _ => inr [phoneA; phoneB];
     users_me := fun _ => inr profile;
     users_me_put := fun _ i => inr (User.mk "u1" (Some i) []);
     heartbeats := fun _ _ _ => inr [];
     messages_send := fun _ _ => inr tt;
     messages := fun _ _ _ => inr [message1] |}.

(** A service that refuses every request. *)
Definition refused : Exn := AxiosError (ValidationErrors.mk None None None).

Definition offline : Gateway :=
  {| message_threads := fun _ _ => inl refused;
     phones_list := fun _ _ => inl refused;
     users_me := fun _ => inl refused;
     users_me_put := fun _ _ => inl refused;
     heartbeats := fun _ _ _ => inl refused;
     messages_send := fun _ _ => inl refused;
     messages := fun _ _ _ => inl refused |}.

(** The store as it is created, nothing having happened yet. *)
Definition fresh (schedule : list bool) : World :=
  {| store := state;
     journal := [];
     issued := 0;
     schedule := schedule;
     randoms := [] |}.

(** The owner is "+1A" and the thread "t1" is open. *)
Definition thread_open (schedule : list bool) : World :=
  {| store :=
       set_threadId (Some "t1")
         (set_threads [thread1]
            (set_phones [phoneA; phoneB] (set_owner (Some "+1A") state)));
     journal := [];
     issued := 0;
     schedule := schedule;
     randoms := [] |}.

Definition hello : SendMessageRequest.t :=
  SendMessageRequest.mk "+1A" "+1B" "hi".

Definition u1 : AuthUser.t := AuthUser.mk "u1".

End scenario.

(** * Properties *)

(** ** Mutations and getters *)

Lemma strict_eq_true (a : string) (b : option string) :
  strict_eq a b = true <-> b = Some a.
Proof.
  unfold strict_eq. destruct b as [s|].
  - rewrite String.eqb_eq. split; [intros ->; reflexivity | intros [= ->]; reflexivity].
  - split; discriminate.
Qed.

Lemma strict_eq_false (a : string) (b : option string) :
  strict_eq a b = false <-> b <> Some a.
Proof.
  rewrite <- strict_eq_true. destruct (strict_eq a b); split; congruence.
Qed.

(** C1. After [setPhones(P)] the phone collection is [P]; the owner stays
    [o] when some phone of [P] has the number [o]; it becomes the number of
    the first phone when [P] is not empty and no phone matches; it stays [o]
    when [P] is empty. *)
Theorem setPhones_owner (s : State) (P : list Phone.t) :
  let o := owner s in
  let s' := mutations.setPhones s P in
  phones s' = P /\
  ((exists x, In x P /\ Some (Phone.phone_number x) = o) -> owner s' = o) /\
  (forall first others,
      P = first :: others ->
      (forall x, In x P -> Some (Phone.phone_number x) <> o) ->
      owner s' = Some (Phone.phone_number first)) /\
  (P = [] -> owner s' = o).
Proof.
  cbv zeta. unfold mutations.setPhones. cbn [phones set_phones owner].
  destruct (find _ P) as [m|] eqn:Hfind.
  - split; [reflexivity | split; [ | split]].
    + intros _. reflexivity.
    + intros first others -> Hnone. exfalso.
      apply find_some in Hfind as [Hin Heq].
      apply strict_eq_true in Heq. apply (Hnone m Hin). symmetry; exact Heq.
    + intros ->. reflexivity.
  - destruct P as [|first others]; cbn.
    + split; [reflexivity | split; [ | split]].
      * intros (x & [] & _).
      * intros ? ? [=].
      * reflexivity.
    + split; [reflexivity | split; [ | split]].
      * intros (x & Hin & Heq). exfalso.
        pose proof (find_none _ _ Hfind x Hin) as Hx. cbn in Hx.
        apply strict_eq_false in Hx. apply Hx. symmetry; exact Heq.
      * intros ? ? [= <- <-] _. reflexivity.
      * intros [=].
Qed.

Lemma find_strict_eq_none {A} (key : A -> string) (k : option string)
    (l : list A) :
  find (fun x => strict_eq (key x) k) l = None <->
  (forall x, In x l -> Some (key x) <> k).
Proof.
  split.
  - intros Hfind x Hin Heq.
    pose proof (find_none _ _ Hfind x Hin) as Hx. cbn in Hx.
    apply strict_eq_false in Hx. congruence.
  - intros Hnone. destruct (find _ l) as [m|] eqn:Hfind; [|reflexivity].
    apply find_some in Hfind as [Hin Heq]. apply strict_eq_true in Heq.
    exfalso. apply (Hnone m Hin). congruence.
Qed.

Lemma find_strict_eq_some {A} (key : A -> string) (k : option string)
    (l : list A) (m : A) :
  find (fun x => strict_eq (key x) k) l = Some m ->
  In m l /\ k = Some (key m).
Proof.
  intros Hfind. apply find_some in Hfind as [Hin Heq].
  apply strict_eq_true in Heq. auto.
Qed.




(** C2. [getThread] throws the not-found error exactly when no thread of
    the collection has the current thread id; otherwise it returns a record
    of the collection with that id.  Hence, for an id present in the
    collection, [setThreadId(id)] followed by [getThread] gives a thread
    with this id. *)
Theorem getThread_spec (axios : Gateway) (w : World) :
  let s := store w in
  ((exists e, getters.getThread s = inl e) <->
   (forall x, In x (threads s) -> Some (MessageThread.id x) <> threadId s)) /\
  (forall e, getters.getThread s = inl e ->
     e = ThreadNotFound (threadId s) /\
     exists i, exn_message e = ("cannot find thread with id " ++ i)%string) /\
  (forall t, getters.getThread s = inr t ->
     In t (threads s) /\ threadId s = Some (MessageThread.id t)) /\
  (forall i,
     (exists x, In x (threads s) /\ MessageThread.id x = i) ->
     let w' := fst (run (actions.dispatch axios (ASetThreadId (Some i))) w) in
     threads (store w') = threads s /\
     exists t, getters.getThread (store w') = inr t /\
               In t (threads s) /\ MessageThread.id t = i).
Proof.
  cbv zeta. unfold getters.getThread.
  split; [split | split; [ | split]].
  - intros [e He]. apply find_strict_eq_none.
    destruct (find _ _); [discriminate | reflexivity].
  - intros Hnone. apply find_strict_eq_none in Hnone. rewrite Hnone. eauto.
  - intros e. destruct (find _ _); [discriminate|]. intros [= <-].
    split; [reflexivity|]. destruct (threadId (store w)); cbn; eauto.
  - intros t. destruct (find _ _) as [m|] eqn:Hfind; [|discriminate].
    intros [= <-]. eapply find_strict_eq_some, Hfind.
  - intros i (x & Hin & <-). cbn -[strict_eq]. split; [reflexivity|].
    destruct (find _ _) as [m|] eqn:Hfind.
    + apply (find_strict_eq_some MessageThread.id) in Hfind as [Hm [= Hid]].
      exists m. auto.
    + exfalso. rewrite find_strict_eq_none in Hfind. apply (Hfind x Hin).
      reflexivity.
Qed.

(** C6. Whatever the state before and whatever the payload, the [setOwner]
    mutation sets both loading flags to true and the owner to the
    payload. *)
Theorem setOwner_rearms_flags (s : State) (payload : string) :
  let s' := mutations.setOwner s payload in
  loadingThreads s' = true /\
  loadingMessages s' = true /\
  owner s' = Some payload.
Proof. cbn. auto. Qed.



(** C10. The owner is null in the initial state, and no mutation takes a
    non-null owner back to null: a mutation that changes the owner is
    [setOwner], which stores its string payload, or [setPhones], which
    stores the number of the first phone of its payload. *)
Theorem owner_never_reverts_to_null :
  owner state = None /\
  (forall x m s, owner s <> None -> owner (mutate x m s) <> None) /\
  (forall x m s,
     owner (mutate x m s) <> owner s ->
     (exists payload,
        m = MSetOwner payload /\ owner (mutate x m s) = Some payload) \/
     (exists first others,
        m = MSetPhones (first :: others) /\
        owner (mutate x m s) = Some (Phone.phone_number first))).
Proof.
  assert (Hchange : forall x m s,
     owner (mutate x m s) <> owner s ->
     (exists payload,
        m = MSetOwner payload /\ owner (mutate x m s) = Some payload) \/
     (exists first others,
        m = MSetPhones (first :: others) /\
        owner (mutate x m s) = Some (Phone.phone_number first))).
  { intros x m s. destruct m; cbn -[mutations.setPhones];
      try (intros H; exfalso; apply H; reflexivity).
    - unfold mutations.setPhones. cbn [phones set_phones owner].
      destruct (find _ payload).
      + intros H; exfalso; apply H; reflexivity.
      + destruct payload as [|first others]; cbn.
        * intros H; exfalso; apply H; reflexivity.
        * intros _. right. eauto.
    - intros _. left. eauto. }
  split; [reflexivity | split; [|exact Hchange]].
  intros x m s Hsome Hnone.
  destruct (Hchange x m s) as [(p & _ & Hp) | (f & o & _ & Hp)];
    congruence.
Qed.

(** ** Running tasks *)

Lemma skipn_length_app {A} (l evs : list A) :
  skipn (length l) (l ++ evs) = evs.
Proof. induction l; [reflexivity | assumption]. Qed.

Lemma Step_induction {A} (P : Step A -> Prop) :
  (forall o, P (Fin o)) ->
  (forall k, (forall w, P (snd (k w))) -> P (Susp k)) ->
  forall s, P s.
Proof.
  intros Hfin Hsusp. fix IH 1. intros [o|k].
  - apply Hfin.
  - apply Hsusp. intros w. apply IH.
Qed.

Lemma settle_bind_step {A B} (s : Step A) (f : A -> Task B) (w : World) :
  (let (w1, s') := bind_step s f w in settle s' w1) = and_then (settle s w) f.
Proof.
  revert w. induction s as [[a|e]|k IH] using Step_induction; intros w; cbn.
  - reflexivity.
  - reflexivity.
  - specialize (IH w). destruct (k w) as [w2 s']. apply IH.
Qed.

(** A task run alone is run in sequence: suspensions do not show. *)
Lemma run_bind {A B} (t : Task A) (f : A -> Task B) (w : World) :
  run (bind t f) w = and_then (run t w) f.
Proof.
  unfold run, bind. destruct (t w) as [w1 s]. apply settle_bind_step.
Qed.

(** Unfold the actions and the operations of tasks, then compute. *)
Ltac unfold_task :=
  unfold run, actions.dispatch, actions.sendMessage, actions.setAuthUser,
    actions.dispatched, actions.loadThreads, actions.loadThreadMessages,
    actions.setOwner, actions.loadUser, actions.loadPhones,
    all2, bind, gets,
    gets_or_throw, emit, commit, http, tick, ret, throw, draw, record,
    with_store, events_since;
  cbn.

(** Case analysis on the innermost scrutinee of the goal. *)
Ltac case_scrutinee :=
  match goal with
  | |- context [match ?x with _ => _ end] =>
      lazymatch x with
      | context [match _ with _ => _ end] => fail
      | _ => let E := fresh "E" in destruct x eqn:E
      end
  end.

(** Use the equations at hand, compute, and split what is left. *)
Ltac rewrite_known :=
  match goal with
  | H : ?x = _ |- context [match ?x with _ => _ end] => rewrite H
  end.

Ltac task_cases :=
  repeat first
    [ progress rewrite_known
    | progress (unfold pick; cbn)
    | case_scrutinee; cbn; try discriminate ].

Ltac journal_normal :=
  repeat rewrite <- app_assoc; cbn [app];
  repeat rewrite skipn_length_app.

(** ** Actions *)

(** C5. With a null owner, [loadThreads] issues no request and leaves an
    empty thread collection with the thread-list flag cleared.  With an
    owner, it fetches the threads of that owner and, when the answer comes,
    replaces the collection by it, which clears the flag too. *)
Theorem loadThreads_spec (axios : Gateway) (w : World) :
  let res := run (actions.dispatch axios ALoadThreads) w in
  (owner (store w) = None ->
     snd res = Resolved tt /\
     events_since w (fst res) =
       [EDispatch ALoadThreads; ECommit (MSetThreads [])] /\
     issued (fst res) = issued w /\
     store (fst res) = mutations.setThreads (store w) [] /\
     threads (store (fst res)) = [] /\
     loadingThreads (store (fst res)) = false) /\
  (forall o fetched,
     owner (store w) = Some o ->
     message_threads axios (issued w) (Some o) = inr fetched ->
     snd res = Resolved tt /\
     events_since w (fst res) =
       [EDispatch ALoadThreads; ERequest (GET_message_threads (Some o));
        ECommit (MSetThreads fetched)] /\
     store (fst res) = mutations.setThreads (store w) fetched /\
     threads (store (fst res)) = fetched /\
     loadingThreads (store (fst res)) = false).
Proof.
  destruct w as [st jr n sch rs]. cbv zeta. split.
  - cbn [store]. intros Ho. unfold_task. unfold getters.getOwner.
    rewrite Ho. cbn. journal_normal. auto 10.
  - cbn [store issued]. intros o fetched Ho Hfetch. unfold_task.
    unfold getters.getOwner. rewrite Ho. cbn. rewrite Ho, Hfetch. cbn.
    journal_normal. auto 10.
Qed.


(** X12. [sendMessage] posts the message before anything else; when the
    post is rejected the action is rejected with that error, nothing is
    reloaded and the store is as it was. *)
Lemma sendMessage_posts_first (axios : Gateway) (w : World)
    (r : SendMessageRequest.t) :
  let res := run (actions.dispatch axios (ASendMessage r)) w in
  (exists rest,
     events_since w (fst res) =
       EDispatch (ASendMessage r) :: ERequest (POST_messages_send r) :: rest) /\
  (forall e,
     messages_send axios (issued w) r = inl e ->
     snd res = Rejected e /\
     events_since w (fst res) =
       [EDispatch (ASendMessage r); ERequest (POST_messages_send r)] /\
     store (fst res) = store w).
Proof.
  destruct w as [st jr n sch rs]. cbv zeta. cbn [store issued]. split.
  - unfold_task. task_cases; journal_normal; eauto.
  - intros e He. unfold_task. rewrite He. cbn. journal_normal. auto.
Qed.


Lemma setPhones_phones (s : State) (p : list Phone.t) :
  phones (mutations.setPhones s p) = p.
Proof.
  unfold mutations.setPhones. cbn [phones set_phones owner].
  destruct (find _ p); [reflexivity|]. destruct p; reflexivity.
Qed.

Lemma setPhones_user (s : State) (p : list Phone.t) :
  user (mutations.setPhones s p) = user s.
Proof.
  unfold mutations.setPhones. cbn [phones set_phones owner].
  destruct (find _ p); [reflexivity|]. destruct p; reflexivity.
Qed.

Lemma find_preferred_phone_loaded (s : State) (loaded : list Phone.t)
    (profile : User.t) :
  phones s = loaded ->
  user s = Some profile ->
  actions.find_preferred_phone s =
    inr (find (fun x => strict_eq (Phone.id x) (User.active_phone_id profile))
              loaded).
Proof.
  unfold actions.find_preferred_phone, getters.getPhones, getters.getUser.
  intros -> ->. destruct loaded; reflexivity.
Qed.

Lemma strict_neq_opt_true (a b : option string) :
  strict_neq_opt a b = true <-> a <> b.
Proof.
  unfold strict_neq_opt.
  destruct a as [a|], b as [b|]; try (split; congruence).
  destruct (String.eqb_spec a b); cbn; split; congruence.
Qed.

(** C3. [setAuthUser(u)] starts the cascade exactly when [u] is not null
    and its id differs from the id of the current user (a missing current
    user has no id).  The cascade dispatches the load of the profile and
    the load of the phones together, before either answer is handled; when
    both have answered it looks for the phone whose id is the profile's
    [active_phone_id] among the phones of the store, and dispatches
    [setOwner] with its number if there is one.  Called with the same id or
    with null, the action commits the user and does nothing else: no load,
    no request, no change of owner. *)
Theorem setAuthUser_cascade (axios : Gateway) (w : World)
    (u : option AuthUser.t) :
  let u0 := authUser (store w) in
  let res := run (actions.dispatch axios (ASetAuthUser u)) w in
  let changed :=
    u <> None /\ option_map AuthUser.id u <> option_map AuthUser.id u0 in
  ((exists rest,
      events_since w (fst res) =
        [EDispatch (ASetAuthUser u); ECommit (MSetAuthUser u);
         EDispatch ALoadUser; ERequest GET_users_me;
         EDispatch (ALoadPhones false)] ++ rest) <-> changed) /\
  (~ changed ->
     snd res = Resolved tt /\
     events_since w (fst res) =
       [EDispatch (ASetAuthUser u); ECommit (MSetAuthUser u)] /\
     issued (fst res) = issued w /\
     store (fst res) = mutations.setAuthUser (store w) u /\
     owner (store (fst res)) = owner (store w)) /\
  (changed ->
   forall profile loaded,
     users_me axios (issued w) = inr profile ->
     match phones (store w) with
     | [] => phones_list axios (S (issued w)) 100 = inr loaded
     | cached => loaded = cached
     end ->
     match find (fun x => strict_eq (Phone.id x) (User.active_phone_id profile))
                loaded with
     | Some phone =>
         In (EDispatch (ASetOwner (Phone.phone_number phone)))
            (events_since w (fst res)) /\
         owner (store (fst res)) = Some (Phone.phone_number phone)
     | None =>
         snd res = Resolved tt /\
         (forall o, ~ In (EDispatch (ASetOwner o)) (events_since w (fst res))) /\
         user (store (fst res)) = Some profile /\
         phones (store (fst res)) = loaded
     end).
Proof.
  destruct w as [st jr n sch rs]. cbv zeta. cbn [store issued].
  destruct u as [a|].
  2:{ unfold_task. task_cases; journal_normal.
      all: (split; [split|split]);
        [ intros [rest [=]] | intros [H _]; congruence | auto
        | intros [H _]; congruence ]. }
  destruct (strict_neq_opt (option_map AuthUser.id (Some a))
              (option_map AuthUser.id (authUser st))) eqn:Hneq.
  2:{ assert (Hsame : ~ (Some a <> None /\
          option_map AuthUser.id (Some a)
            <> option_map AuthUser.id (authUser st))).
      { intros [_ H]. apply strict_neq_opt_true in H. congruence. }
      unfold_task. unfold getters.getAuthUser. cbn in Hneq. rewrite Hneq. cbn.
      journal_normal.
      split; [split|split].
      - intros [rest [=]].
      - intros H. contradiction.
      - intros _. auto.
      - intros H. contradiction. }
  assert (Hchanged : Some a <> None /\
          option_map AuthUser.id (Some a) <> option_map AuthUser.id (authUser st)).
  { split; [discriminate|]. apply strict_neq_opt_true. exact Hneq. }
  split; [split|split].
  - intros _. exact Hchanged.
  - intros _. unfold_task. unfold getters.getAuthUser. cbn in Hneq.
    rewrite Hneq. cbn. task_cases; journal_normal; eexists; reflexivity.
  - intros H. contradiction.
  - intros _ profile loaded Huser Hloaded.
    destruct (find _ loaded) as [phone|] eqn:Hfind.
    all: unfold_task; unfold getters.getAuthUser, getters.getPhones;
      cbn in Hneq; rewrite Hneq; cbn.
    all: destruct (phones st) as [|p ps] eqn:Hph; cbn.
    all: repeat first
          [ progress rewrite_known
          | rewrite (find_preferred_phone_loaded _ loaded profile)
              by (cbn; rewrite ?setPhones_phones, ?setPhones_user; cbn;
                  congruence)
          | progress (unfold pick; cbn)
          | case_scrutinee; cbn; try discriminate ].
    all: journal_normal; cbn.
    all: try (split; [auto 15 | reflexivity]).
    all: split; [reflexivity | split; [ | split ] ].
    all: try (intros o Hin; cbn in Hin; intuition discriminate).
    all: cbn; rewrite ?setPhones_user, ?setPhones_phones; cbn; congruence.
Qed.

(** ** The error handler of the new-message page *)

Lemma append_String (c : Ascii.ascii) (a b : string) :
  (String c a ++ b)%string = String c (a ++ b)%string.
Proof. reflexivity. Qed.

Lemma append_Empty (b : string) : (EmptyString ++ b)%string = b.
Proof. reflexivity. Qed.

Lemma prefix_true_iff (p s : string) :
  String.prefix p s = true <-> exists b, s = (p ++ b)%string.
Proof.
  revert s. induction p as [|c p IH]; intros s.
  - split; [intros _; exists s; reflexivity | destruct s; reflexivity].
  - destruct s as [|d s]; cbn.
    + split; [discriminate | intros [b [=]]].
    + destruct (Ascii.ascii_dec c d) as [->|Hne].
      * rewrite IH. split; intros [b Hb]; exists b.
        -- rewrite append_String. f_equal. exact Hb.
        -- rewrite append_String in Hb. injection Hb as Hb. exact Hb.
      * split; [discriminate|]. intros [b Hb].
        rewrite append_String in Hb. injection Hb as Hcd _. congruence.
Qed.

Lemma string_drop_app (p b : string) :
  string_drop (String.length p) (p ++ b) = b.
Proof.
  induction p as [|c p IH]; [destruct b; reflexivity|].
  rewrite append_String. exact IH.
Qed.

Lemma replace_unfold (pattern replacement s : string) :
  replace pattern replacement s =
  if String.prefix pattern s
  then (replacement ++ string_drop (String.length pattern) s)%string
  else match s with
       | EmptyString => EmptyString
       | String c s' => String c (replace pattern replacement s')
       end.
Proof. destruct s; reflexivity. Qed.

(** The leftmost occurrence of the pattern is the one replaced. *)
Lemma replace_first_occurrence (pattern replacement a b : string) :
  (forall a' b',
      (a ++ pattern ++ b = a' ++ pattern ++ b')%string ->
      (String.length a <= String.length a')%nat) ->
  replace pattern replacement (a ++ pattern ++ b) =
    (a ++ replacement ++ b)%string.
Proof.
  induction a as [|c a IH]; intros Hmin.
  - rewrite !append_Empty, replace_unfold.
    replace (String.prefix pattern (pattern ++ b)) with true
      by (symmetry; apply prefix_true_iff; eauto).
    rewrite string_drop_app. reflexivity.
  - rewrite replace_unfold.
    destruct (String.prefix pattern (String c a ++ pattern ++ b)) eqn:Hp.
    + apply prefix_true_iff in Hp as [b' Hb'].
      specialize (Hmin EmptyString b' Hb'). cbn in Hmin. lia.
    + rewrite !append_String. f_equal. apply IH. intros a' b' Heq.
      specialize (Hmin (String c a') b'). cbn in Hmin.
      apply PeanoNat.Nat.succ_le_mono, Hmin.
      rewrite !append_String. f_equal. exact Heq.
Qed.

(** A string without the pattern is left as it is. *)
Lemma replace_no_occurrence (pattern replacement s : string) :
  (forall a b, s <> (a ++ pattern ++ b)%string) ->
  replace pattern replacement s = s.
Proof.
  induction s as [|c s IH]; intros Hnone; rewrite replace_unfold.
  - destruct (String.prefix pattern EmptyString) eqn:Hp; [|reflexivity].
    apply prefix_true_iff in Hp as [b Hb]. exfalso.
    apply (Hnone EmptyString b). exact Hb.
  - destruct (String.prefix pattern (String c s)) eqn:Hp.
    + apply prefix_true_iff in Hp as [b Hb]. exfalso.
      apply (Hnone EmptyString b). exact Hb.
    + f_equal. apply IH. intros a b ->.
      apply (Hnone (String c a) b). reflexivity.
Qed.

(** C9. The errors of the [to] field are shown under the phone-number
    input, each with its (leftmost) "to field" rewritten to "phone number
    field", and a string without "to field" unchanged.  An error of the
    [from] field is not shown under any input: its first string is sent to
    the store as a notification of type [error]. *)
Theorem sendMessage_catch_spec (this : messages_page.Data)
    (data : ValidationErrors.t) :
  let shown := fst (messages_page.sendMessage_catch this data) in
  let sent := snd (messages_page.sendMessage_catch this data) in
  let rewrite := replace "to field" "phone number field" in
  (forall errs,
     ValidationErrors.to data = Some errs ->
     messages_page.field_has_error shown "to" = true /\
     messages_page.field_error_messages shown "to" = Some (map rewrite errs)) /\
  (forall a b : string,
     (forall a' b',
        (a ++ "to field" ++ b = a' ++ "to field" ++ b')%string ->
        (String.length a <= String.length a')%nat) ->
     rewrite (a ++ "to field" ++ b)%string
       = (a ++ "phone number field" ++ b)%string) /\
  (forall x : string,
     (forall a b, x <> (a ++ "to field" ++ b)%string) -> rewrite x = x) /\
  (forall first others,
     ValidationErrors.from data = Some (first :: others) ->
     sent = [ {| messages_page.d_message := Some first;
                 messages_page.d_type := error |} ]) /\
  (ValidationErrors.from data = None -> sent = []) /\
  messages_page.field_has_error shown "from" = false /\
  messages_page.field_error_messages shown "from" = None.
Proof.
  cbv zeta.
  unfold messages_page.field_has_error, messages_page.field_error_messages,
    messages_page.sendMessage_catch.
  cbn [fst snd messages_page.errors].
  split; [|split; [|split; [|split; [|split]]]].
  - intros errs ->. rewrite lookup_insert_eq. auto.
  - intros a b. apply replace_first_occurrence.
  - intros x. apply replace_no_occurrence.
  - intros first others ->. reflexivity.
  - intros ->. reflexivity.
  - assert (Hfrom : forall (m : gmap string (list string)),
              m !! "from" = None ->
              match ValidationErrors.to data with
              | Some t =>
                  <["to" := map (fun x =>
                     replace "to field" "phone number field" x) t]> m
              | None => m
              end !! "from" = None).
    { intros m Hm. destruct (ValidationErrors.to data); [|exact Hm].
      rewrite lookup_insert_ne by discriminate. exact Hm. }
    rewrite Hfrom; [auto|].
    destruct (ValidationErrors.content data).
    + rewrite lookup_insert_ne by discriminate. apply lookup_empty.
    + apply lookup_empty.
Qed.

(** ** The scenarios, run *)


(** The two reloads finish in either order, as the schedule has it. *)
Example sendMessage_messages_first :
  events_since (scenario.thread_open [true; true])
    (fst (run (actions.dispatch scenario.service
                 (ASendMessage scenario.hello))
              (scenario.thread_open [true; true]))) =
  [EDispatch (ASendMessage scenario.hello);
   ERequest (POST_messages_send scenario.hello);
   EDispatch (ALoadThreadMessages (Some "t1"));
   ECommit (MSetThreadId (Some "t1"));
   EDispatch ALoadThreads;
   ERequest (GET_message_threads (Some "+1A"));
   ERequest (GET_messages "+1B" "+1A");
   ECommit (MSetThreadMessages [scenario.message1]);
   ECommit (MSetThreads [scenario.thread1])].
Proof. reflexivity. Qed.

Example sendMessage_threads_first :
  events_since (scenario.thread_open [true; false])
    (fst (run (actions.dispatch scenario.service
                 (ASendMessage scenario.hello))
              (scenario.thread_open [true; false]))) =
  [EDispatch (ASendMessage scenario.hello);
   ERequest (POST_messages_send scenario.hello);
   EDispatch (ALoadThreadMessages (Some "t1"));
   ECommit (MSetThreadId (Some "t1"));
   EDispatch ALoadThreads;
   ERequest (GET_message_threads (Some "+1A"));
   ERequest (GET_messages "+1B" "+1A");
   ECommit (MSetThreads [scenario.thread1]);
   ECommit (MSetThreadMessages [scenario.message1])].
Proof. reflexivity. Qed.

(** Without an owner the reload of the thread list empties the collection
    before the reload of the messages looks its thread up: the action is
    rejected. *)
Example sendMessage_without_owner :
  snd (run (actions.dispatch scenario.service (ASendMessage scenario.hello))
           (mkWorld
              (set_threadId (Some "t1") (set_threads [scenario.thread1] state))
              [] 0 [] [])) =
  Rejected (ThreadNotFound (Some "t1")).
Proof. reflexivity. Qed.

(** Scenario: owner=null, [loadThreads()], then threads=[] and
    loadingThreads=false. *)
Example loadThreads_without_owner :
  let w := fst (run (actions.dispatch scenario.service ALoadThreads)
                    (scenario.fresh [])) in
  threads (store w) = [] /\ loadingThreads (store w) = false /\
  journal w = [EDispatch ALoadThreads; ECommit (MSetThreads [])].
Proof. repeat split. Qed.

(** Scenario: with owner "+1B", [setPhones] of the phones "+1A" and "+1B"
    leaves the owner and the thread-list flag as they were. *)
Example setPhones_keeps_matching_owner :
  let s := set_owner (Some "+1B") state in
  let s' := mutations.setPhones s [scenario.phoneA; scenario.phoneB] in
  owner s' = Some "+1B" /\ loadingThreads s' = loadingThreads s.
Proof. split; reflexivity. Qed.

(** Scenario: [setAuthUser({id: "u1"})] twice; the second call loads
    nothing.  The first one selects the phone "2" of the profile. *)
Example setAuthUser_twice :
  let w1 := fst (run (actions.dispatch scenario.service
                        (ASetAuthUser (Some scenario.u1)))
                     (scenario.fresh [])) in
  let w2 := fst (run (actions.dispatch scenario.service
                        (ASetAuthUser (Some scenario.u1))) w1) in
  journal w1 =
    [EDispatch (ASetAuthUser (Some scenario.u1));
     ECommit (MSetAuthUser (Some scenario.u1));
     EDispatch ALoadUser; ERequest GET_users_me;
     EDispatch (ALoadPhones false); ERequest (GET_phones 100);
     ECommit (MSetUser (Some scenario.profile));
     ECommit (MSetPhones [scenario.phoneA; scenario.phoneB]);
     EDispatch (ASetOwner "+1B"); ECommit (MSetOwner "+1B");
     ERequest (PUT_users_me "2");
     ECommit (MSetUser (Some scenario.profile))] /\
  owner (store w1) = Some "+1B" /\
  events_since w1 w2 =
    [EDispatch (ASetAuthUser (Some scenario.u1));
     ECommit (MSetAuthUser (Some scenario.u1))] /\
  store w2 = store w1.
Proof. repeat split. Qed.

(** The rewriting of the page, on messages of the server. *)
Example replace_to_field :
  replace "to field" "phone number field" "The to field is required" =
  "The phone number field is required".
Proof. reflexivity. Qed.

Example replace_leftmost_only :
  replace "to field" "phone number field" "to field, to field" =
  "phone number field, to field".
Proof. reflexivity. Qed.

Example sendMessage_catch_from_and_to :
  let data :=
    ValidationErrors.mk None (Some ["The to field is not a phone number"])
      (Some ["The from field is not yours"; "second"]) in
  let res :=
    messages_page.sendMessage_catch
      (messages_page.mkData true "+1B" "hi" ∅) data in
  messages_page.field_error_messages (fst res) "to" =
    Some ["The phone number field is not a phone number"] /\
  messages_page.field_error_messages (fst res) "from" = None /\
  snd res =
    [messages_page.mkDispatched (Some "The from field is not yours") error].
Proof. repeat split. Qed.

(** * Further properties of the store and of the page *)

(** ** Getters and mutations *)





(** X1. After [setPhones] of a collection that is not empty, the active
    phone exists: [getActivePhone] returns a phone of the collection, the
    one whose number is the owner.  After [setPhones([])] there is none. *)
Theorem setPhones_selects_active_phone (s : State) (first : Phone.t)
    (others : list Phone.t) :
  (exists phone,
     getters.getActivePhone (mutations.setPhones s (first :: others))
       = Some phone /\
     In phone (first :: others) /\
     getters.getOwner (mutations.setPhones s (first :: others))
       = Some (Phone.phone_number phone)) /\
  getters.getActivePhone (mutations.setPhones s []) = None.
Proof.
  split; [|reflexivity].
  unfold getters.getActivePhone, getters.getOwner, mutations.setPhones.
  cbn [phones set_phones owner].
  destruct (find _ (first :: others)) as [m|] eqn:Hfind.
  - exists m. cbn [phones set_phones owner]. rewrite Hfind.
    apply (find_strict_eq_some Phone.phone_number) in Hfind as [Hin Ho].
    auto.
  - exists first. cbn -[strict_eq].
    replace (strict_eq (Phone.phone_number first)
               (Some (Phone.phone_number first))) with true
      by (symmetry; apply strict_eq_true; reflexivity).
    auto.
Qed.

(** X2. [hasThreadId(id)] is true exactly when the collection has a thread
    with this id, which is exactly when [getThread] succeeds once [id] is
    the current thread id. *)
Theorem hasThreadId_spec (s : State) (i : string) :
  (getters.hasThreadId s i = true <->
   exists t, In t (threads s) /\ MessageThread.id t = i) /\
  (getters.hasThreadId s i = true <->
   exists t, getters.getThread (mutations.setThreadId s (Some i)) = inr t).
Proof.
  unfold getters.hasThreadId, getters.getThread. cbn [mutations.setThreadId
    set_threadId threads threadId].
  change (fun x : MessageThread.t => String.eqb (MessageThread.id x) i)
    with (fun x : MessageThread.t => strict_eq (MessageThread.id x) (Some i)).
  destruct (find _ (threads s)) as [m|] eqn:Hfind.
  - apply (find_strict_eq_some MessageThread.id) in Hfind as [Hin [= Hid]].
    split; split; eauto.
  - rewrite find_strict_eq_none in Hfind. split; split; try discriminate.
    + intros (t & Hin & <-). exfalso. apply (Hfind t Hin). reflexivity.
    + intros [t [=]].
Qed.

(** X3. [hasThread] is false in the initial state and after every
    [setOwner], whatever thread id is set; after [setThreads] it is true
    exactly when a thread id is set, whether or not the new collection has
    a thread with this id. *)
Theorem hasThread_gate (s : State) :
  getters.hasThread state = false /\
  (forall o, getters.hasThread (mutations.setOwner s o) = false) /\
  (forall l, getters.hasThread (mutations.setThreads s l) = true <->
             threadId s <> None) /\
  (forall i l,
     getters.hasThread
       (mutations.setThreads (mutations.setThreadId s (Some i)) l) = true).
Proof.
  unfold getters.hasThread. cbn.
  split; [reflexivity | split; [|split]].
  - intros _. destruct (threadId s); reflexivity.
  - intros _. destruct (threadId s); split; congruence.
  - reflexivity.
Qed.

(** X4. [disableNotification] only clears [active]: message, type and
    timeout stay, and so does the rest of the state; doing it twice is
    doing it once.  It does not know which notification it was meant for:
    after two notifications it hides the second one. *)
Theorem disableNotification_spec (s : State) :
  let s' := mutations.disableNotification s in
  active (notification s') = false /\
  message (notification s') = message (notification s) /\
  type (notification s') = type (notification s) /\
  timeout (notification s') = timeout (notification s) /\
  set_notification (notification s) s' = s /\
  mutations.disableNotification s' = s' /\
  (forall x1 x2 r1 r2,
     notification
       (mutations.disableNotification
          (mutations.setNotification x2
             (mutations.setNotification x1 s r1) r2)) =
     {| message := NotificationRequest.message r2;
        timeout := random_below_100 x2 + defaultNotificationTimeout;
        active := false;
        type := NotificationRequest.type r2 |}).
Proof.
  cbv zeta. destruct s as [ow lt lm au us ph th ti hb po no tm]. cbn.
  repeat (split; [reflexivity|]). reflexivity.
Qed.


Lemma get_length_append (base : string) (c : ascii) :
  String.get (String.length base) (base ++ String c EmptyString) = Some c.
Proof.
  induction base as [|d base IH]; [reflexivity|].
  rewrite append_String. exact IH.
Qed.

Lemma substring_length_append (base rest : string) :
  String.substring 0 (String.length base) (base ++ rest) = base.
Proof.
  induction base as [|d base IH].
  - destruct rest; reflexivity.
  - rewrite append_String. cbn. f_equal. exact IH.
Qed.

Lemma length_append_char (base : string) (c : ascii) :
  String.length (base ++ String c EmptyString) = S (String.length base).
Proof.
  induction base as [|d base IH]; [reflexivity|].
  rewrite append_String. cbn. f_equal. exact IH.
Qed.

Lemma ends_with_char (u : string) (c : ascii) :
  (0 <? String.length u)%nat && char_at_is u (String.length u - 1) c = true ->
  exists base, u = (base ++ String c EmptyString)%string.
Proof.
  induction u as [|d u IH]; [discriminate|].
  destruct u as [|e u].
  - unfold char_at_is. cbn. destruct (Ascii.eqb_spec d c); [|discriminate].
    intros _. exists EmptyString. subst. reflexivity.
  - intros H. destruct IH as [base Hbase].
    + rewrite <- H. unfold char_at_is. cbn. rewrite PeanoNat.Nat.sub_0_r.
      reflexivity.
    + exists (String d base). rewrite append_String. f_equal. exact Hbase.
Qed.

(** X6. [getAppData] gives the application url without its trailing slash:
    one slash at the end is removed, and one only; a url that does not end
    with a slash (the empty one too) is given as it is.  The other entries
    are those of the environment. *)
Theorem getAppData_url (env : Env.t) :
  let data := getters.getAppData env in
  (forall base, Env.APP_URL env = (base ++ "/")%string -> url data = base) /\
  ((forall base, Env.APP_URL env <> (base ++ "/")%string) ->
     url data = Env.APP_URL env) /\
  (Env.APP_URL env = url data \/
   Env.APP_URL env = (url data ++ "/")%string) /\
  appDownloadUrl data = Env.APP_DOWNLOAD_URL env /\
  documentationUrl data = Env.APP_DOCUMENTATION_URL env /\
  githubUrl data = Env.APP_GITHUB_URL env /\
  name data = Env.APP_NAME env.
Proof.
  cbv zeta. unfold getters.getAppData. cbn [url appDownloadUrl
    documentationUrl githubUrl name].
  assert (Hslash : forall base,
    Env.APP_URL env = (base ++ "/")%string ->
    (if (0 <? String.length (Env.APP_URL env))%nat
        && char_at_is (Env.APP_URL env)
             (String.length (Env.APP_URL env) - 1) "/"
     then String.substring 0 (String.length (Env.APP_URL env) - 1)
            (Env.APP_URL env)
     else Env.APP_URL env) = base).
  { intros base ->. rewrite length_append_char. cbn [Nat.ltb Nat.leb Nat.sub].
    rewrite PeanoNat.Nat.sub_0_r. unfold char_at_is.
    rewrite get_length_append. cbn [Ascii.eqb Bool.eqb andb].
    apply substring_length_append. }
  split; [exact Hslash | split; [|split; [|auto]]].
  - intros Hnone.
    destruct ((0 <? String.length (Env.APP_URL env))%nat
              && char_at_is (Env.APP_URL env)
                   (String.length (Env.APP_URL env) - 1) "/") eqn:Hc;
      [|reflexivity].
    apply ends_with_char in Hc as [base Hbase]. exfalso.
    exact (Hnone base Hbase).
  - destruct ((0 <? String.length (Env.APP_URL env))%nat
              && char_at_is (Env.APP_URL env)
                   (String.length (Env.APP_URL env) - 1) "/") eqn:Hc;
      [|left; reflexivity].
    right. pose proof Hc as Hc'. apply ends_with_char in Hc' as [base Hbase].
    rewrite (Hslash base Hbase). exact Hbase.
Qed.

Example getAppData_strips_one_slash :
  url (getters.getAppData (Env.mk "https://httpsms.com//" "" "" "" "")) =
  "https://httpsms.com/".
Proof. reflexivity. Qed.

(** ** Loads *)

(** X7. [loadPhones(force)] does nothing when phones are cached and
    [force] is false: no request, the store as it was.  Otherwise it asks
    for at most 100 phones; the answer goes through [setPhones], a
    rejection leaves the store as it was and rejects the action. *)
Theorem loadPhones_spec (axios : Gateway) (w : World) (force : bool) :
  let res := run (actions.dispatch axios (ALoadPhones force)) w in
  (phones (store w) <> [] -> force = false ->
     snd res = Resolved tt /\
     events_since w (fst res) = [EDispatch (ALoadPhones force)] /\
     issued (fst res) = issued w /\
     store (fst res) = store w) /\
  (phones (store w) = [] \/ force = true ->
     (forall loaded,
        phones_list axios (issued w) 100 = inr loaded ->
        snd res = Resolved tt /\
        events_since w (fst res) =
          [EDispatch (ALoadPhones force); ERequest (GET_phones 100);
           ECommit (MSetPhones loaded)] /\
        store (fst res) = mutations.setPhones (store w) loaded) /\
     (forall e,
        phones_list axios (issued w) 100 = inl e ->
        snd res = Rejected e /\
        events_since w (fst res) =
          [EDispatch (ALoadPhones force); ERequest (GET_phones 100)] /\
        store (fst res) = store w)).
Proof.
  destruct w as [st jr n sch rs]. cbv zeta. cbn [store issued].
  unfold_task. unfold getters.getPhones. split.
  - intros Hcached ->. destruct (phones st); [contradiction|].
    cbn. journal_normal. auto.
  - intros Hload.
    assert (Hgo : (0 <? length (phones st))%nat && negb force = false).
    { destruct Hload as [-> | ->]; [reflexivity | apply andb_false_r]. }
    change (match length (phones st) with 0%nat => false | S _ => true end)
      with (0 <? length (phones st))%nat.
    rewrite Hgo. cbn. split.
    + intros loaded ->. cbn. journal_normal. auto.
    + intros e ->. cbn. journal_normal. auto.
Qed.

(** X8. [loadUser] asks for the profile; the answer replaces the cached
    profile and nothing else, a rejection leaves the store as it was and
    rejects the action. *)
Theorem loadUser_spec (axios : Gateway) (w : World) :
  let res := run (actions.dispatch axios ALoadUser) w in
  (forall profile,
     users_me axios (issued w) = inr profile ->
     snd res = Resolved tt /\
     events_since w (fst res) =
       [EDispatch ALoadUser; ERequest GET_users_me;
        ECommit (MSetUser (Some profile))] /\
     store (fst res) = set_user (Some profile) (store w)) /\
  (forall e,
     users_me axios (issued w) = inl e ->
     snd res = Rejected e /\
     events_since w (fst res) = [EDispatch ALoadUser; ERequest GET_users_me] /\
     store (fst res) = store w).
Proof.
  destruct w as [st jr n sch rs]. cbv zeta. cbn [store issued].
  unfold_task. split.
  - intros profile ->. cbn. journal_normal. auto.
  - intros e ->. cbn. journal_normal. auto.
Qed.

(** X9. [getHeartbeat] asks for one heartbeat of the current owner (null
    included) and stores the first heartbeat of the answer, or null when
    the answer is empty; a rejection leaves the heartbeat as it was. *)
Theorem getHeartbeat_spec (axios : Gateway) (w : World) :
  let res := run (actions.dispatch axios AGetHeartbeat) w in
  let request := ERequest (GET_heartbeats 1 (owner (store w))) in
  (forall answer,
     heartbeats axios (issued w) 1 (owner (store w)) = inr answer ->
     snd res = Resolved tt /\
     events_since w (fst res) =
       [EDispatch AGetHeartbeat; request;
        ECommit (MSetHeartbeat (hd_error answer))] /\
     store (fst res) = set_heartbeat (hd_error answer) (store w)) /\
  (forall e,
     heartbeats axios (issued w) 1 (owner (store w)) = inl e ->
     snd res = Rejected e /\
     events_since w (fst res) = [EDispatch AGetHeartbeat; request] /\
     store (fst res) = store w).
Proof.
  destruct w as [st jr n sch rs]. cbv zeta. cbn [store issued].
  unfold actions.dispatch, actions.getHeartbeat. unfold_task.
  unfold getters.getOwner. split.
  - intros answer ->. destruct answer; cbn; journal_normal; auto.
  - intros e ->. cbn. journal_normal. auto.
Qed.

(** X10. When the request of [loadThreads] is rejected the action is
    rejected and the store is not touched: the thread collection and the
    thread-list flag stay as they were, so a flag that was set stays set. *)
Theorem loadThreads_rejected (axios : Gateway) (w : World) (o : string)
    (e : Exn) :
  owner (store w) = Some o ->
  message_threads axios (issued w) (Some o) = inl e ->
  let res := run (actions.dispatch axios ALoadThreads) w in
  snd res = Rejected e /\
  events_since w (fst res) =
    [EDispatch ALoadThreads; ERequest (GET_message_threads (Some o))] /\
  store (fst res) = store w /\
  loadingThreads (store (fst res)) = loadingThreads (store w).
Proof.
  destruct w as [st jr n sch rs]. cbn [store issued]. intros Ho He.
  cbv zeta. unfold_task. unfold getters.getOwner. rewrite Ho. cbn.
  rewrite Ho, He. cbn. journal_normal. auto.
Qed.

Lemma loadThreads_rejected_witness :
  let w :=
    mkWorld (set_owner (Some "+1A") state) [] 0 [] [] in
  let res := run (actions.dispatch scenario.offline ALoadThreads) w in
  snd res = Rejected scenario.refused /\
  store (fst res) = store w /\
  loadingThreads (store (fst res)) = true.
Proof.
  cbv zeta.
  destruct (loadThreads_rejected scenario.offline
              (mkWorld (set_owner (Some "+1A") state) [] 0 [] [])
              "+1A" scenario.refused eq_refl eq_refl)
    as (Hout & _ & Hstore & Hflag).
  split; [exact Hout | split; [exact Hstore | exact Hflag]].
Defined.

(** X11. [loadThreadMessages(id)] first makes [id] the current thread id.
    If the collection has no thread with this id the action is rejected
    with the not-found error, no request is issued, and the missing id
    stays the current one.  Otherwise it asks for the messages of the
    contact and the owner of that thread (not of the owner of the store);
    the answer replaces the messages and clears the thread-messages flag,
    a rejection leaves both as they were. *)
Theorem loadThreadMessages_spec (axios : Gateway) (w : World)
    (i : option string) :
  let res := run (actions.dispatch axios (ALoadThreadMessages i)) w in
  let selected := mutations.setThreadId (store w) i in
  (getters.getThread selected = inl (ThreadNotFound i) ->
     snd res = Rejected (ThreadNotFound i) /\
     events_since w (fst res) =
       [EDispatch (ALoadThreadMessages i); ECommit (MSetThreadId i)] /\
     issued (fst res) = issued w /\
     store (fst res) = selected) /\
  (forall thread,
     getters.getThread selected = inr thread ->
     let request :=
       ERequest (GET_messages (MessageThread.contact thread)
                              (MessageThread.owner thread)) in
     (forall answer,
        messages axios (issued w) (MessageThread.contact thread)
                 (MessageThread.owner thread) = inr answer ->
        snd res = Resolved tt /\
        events_since w (fst res) =
          [EDispatch (ALoadThreadMessages i); ECommit (MSetThreadId i);
           request; ECommit (MSetThreadMessages answer)] /\
        store (fst res) = mutations.setThreadMessages selected answer /\
        loadingMessages (store (fst res)) = false) /\
     (forall e,
        messages axios (issued w) (MessageThread.contact thread)
                 (MessageThread.owner thread) = inl e ->
        snd res = Rejected e /\
        events_since w (fst res) =
          [EDispatch (ALoadThreadMessages i); ECommit (MSetThreadId i);
           request] /\
        store (fst res) = selected)).
Proof.
  destruct w as [st jr n sch rs]. cbv zeta. cbn [store issued].
  unfold_task. split.
  - intros ->. cbn. journal_normal. auto.
  - intros thread Ht. rewrite Ht. cbn. rewrite Ht. cbn. split.
    + intros answer ->. cbn. journal_normal. auto.
    + intros e ->. cbn. journal_normal. auto.
Qed.

(** ** Sending a message *)

(** X13. When the message is accepted by the server but no thread is open
    (the current thread id matches no thread), [sendMessage] is rejected
    with the not-found error after the message is sent: nothing is
    reloaded and the store is as it was. *)
Theorem sendMessage_without_open_thread (axios : Gateway) (w : World)
    (r : SendMessageRequest.t) (e : Exn) :
  messages_send axios (issued w) r = inr tt ->
  getters.getThread (store w) = inl e ->
  let res := run (actions.dispatch axios (ASendMessage r)) w in
  snd res = Rejected (ThreadNotFound (threadId (store w))) /\
  events_since w (fst res) =
    [EDispatch (ASendMessage r); ERequest (POST_messages_send r)] /\
  store (fst res) = store w.
Proof.
  destruct w as [st jr n sch rs]. cbn [store issued]. intros Hsend Hthread.
  assert (He : e = ThreadNotFound (threadId st)).
  { unfold getters.getThread in Hthread.
    destruct (find _ (threads st)); congruence. }
  subst e. cbv zeta. unfold_task. rewrite Hsend. cbn. rewrite Hthread. cbn.
  journal_normal. auto.
Qed.

Lemma sendMessage_without_open_thread_witness :
  let res :=
    run (actions.dispatch scenario.service (ASendMessage scenario.hello))
        (scenario.fresh []) in
  snd res = Rejected (ThreadNotFound None) /\
  journal (fst res) =
    [EDispatch (ASendMessage scenario.hello);
     ERequest (POST_messages_send scenario.hello)] /\
  store (fst res) = state.
Proof.
  cbv zeta.
  exact (sendMessage_without_open_thread scenario.service (scenario.fresh [])
           scenario.hello (ThreadNotFound None) eq_refl eq_refl).
Defined.

(** X14. Without an owner [sendMessage] never resolves, whatever the
    server answers and whatever the schedule: if the message is accepted
    and a thread is open, the reload of the thread list empties the
    collection before the reload of the messages looks its thread up, and
    the action is rejected with the not-found error of that thread. *)
Theorem sendMessage_without_owner_rejected (axios : Gateway) (w : World)
    (r : SendMessageRequest.t) :
  owner (store w) = None ->
  let res := run (actions.dispatch axios (ASendMessage r)) w in
  (exists e, snd res = Rejected e) /\
  (forall thread,
     messages_send axios (issued w) r = inr tt ->
     getters.getThread (store w) = inr thread ->
     snd res = Rejected (ThreadNotFound (Some (MessageThread.id thread))) /\
     threads (store (fst res)) = [] /\
     threadId (store (fst res)) = Some (MessageThread.id thread) /\
     loadingThreads (store (fst res)) = false /\
     issued (fst res) = S (issued w)).
Proof.
  destruct w as [st jr n sch rs]. cbn [store issued]. intros Ho. cbv zeta.
  split.
  - unfold_task. unfold getters.getOwner. task_cases; eauto.
  - intros thread Hsend Hthread. unfold_task. unfold getters.getOwner.
    rewrite Hsend. cbn. rewrite Hthread. cbn. rewrite Ho. cbn.
    task_cases; auto.
Qed.

Lemma sendMessage_without_owner_rejected_witness :
  let w :=
    mkWorld (set_threadId (Some "t1") (set_threads [scenario.thread1] state))
      [] 0 [false] [] in
  let res :=
    run (actions.dispatch scenario.service (ASendMessage scenario.hello)) w in
  snd res = Rejected (ThreadNotFound (Some "t1")) /\
  threads (store (fst res)) = [].
Proof.
  cbv zeta.
  destruct (sendMessage_without_owner_rejected scenario.service
    (mkWorld (set_threadId (Some "t1") (set_threads [scenario.thread1] state))
       [] 0 [false] [])
    scenario.hello eq_refl) as [_ H].
  destruct (H scenario.thread1 eq_refl eq_refl) as (Hout & Hth & _).
  split; [exact Hout | exact Hth].
Defined.

(** ** The cascade of [setAuthUser] *)




Lemma setPhones_authUser (s : State) (p : list Phone.t) :
  authUser (mutations.setPhones s p) = authUser s.
Proof.
  unfold mutations.setPhones. cbn [phones set_phones owner].
  destruct (find _ p); [reflexivity|]. destruct p; reflexivity.
Qed.

Lemma strict_neq_opt_same (a : option string) : strict_neq_opt a a = false.
Proof.
  unfold strict_neq_opt. destruct a as [a|]; [|reflexivity].
  rewrite String.eqb_refl. reflexivity.
Qed.

Lemma skipn_length_app_more {A} (l l1 l' : list A) :
  skipn (length (l ++ l1)) (l ++ l') = skipn (length l1) l'.
Proof. induction l; [reflexivity | assumption]. Qed.

Lemma setAuthUser_same (s : State) (v : option AuthUser.t) :
  authUser s = v -> mutations.setAuthUser s v = s.
Proof. destruct s. cbn. intros ->. reflexivity. Qed.

(** X16. When the load of the profile is rejected, the cascade of
    [setAuthUser] is rejected without selecting an owner, but the user is
    committed all the same.  So the loads are not tried again: a second
    [setAuthUser] with the same user only commits it, and the profile
    stays as it was before the first call. *)
Theorem setAuthUser_failed_load_not_retried (axios : Gateway) (w : World)
    (a : AuthUser.t) (e : Exn) :
  option_map AuthUser.id (Some a)
    <> option_map AuthUser.id (authUser (store w)) ->
  users_me axios (issued w) = inl e ->
  let res := run (actions.dispatch axios (ASetAuthUser (Some a))) w in
  let again :=
    run (actions.dispatch axios (ASetAuthUser (Some a))) (fst res) in
  (exists e', snd res = Rejected e') /\
  authUser (store (fst res)) = Some a /\
  user (store (fst res)) = user (store w) /\
  (forall o, ~ In (EDispatch (ASetOwner o)) (events_since w (fst res))) /\
  snd again = Resolved tt /\
  events_since (fst res) (fst again) =
    [EDispatch (ASetAuthUser (Some a)); ECommit (MSetAuthUser (Some a))] /\
  store (fst again) = store (fst res).
Proof.
  destruct w as [st jr n sch rs]. cbn [store issued]. intros Hneq Hfail.
  apply strict_neq_opt_true in Hneq. cbn in Hneq. cbv zeta.
  unfold_task. unfold getters.getAuthUser, getters.getPhones.
  rewrite Hneq. cbn.
  repeat first
    [ progress rewrite_known
    | rewrite setPhones_authUser
    | rewrite strict_neq_opt_same
    | progress (unfold pick; cbn)
    | case_scrutinee; cbn; try discriminate ].
  all: journal_normal; cbn.
  all: rewrite ?setPhones_authUser, ?setPhones_user; cbn.
  all: split; [eauto | split; [reflexivity | split; [reflexivity|]]].
  all: split; [intros o Hin; intuition discriminate|].
  all: split; [reflexivity | split].
  all: try (rewrite skipn_length_app_more; reflexivity).
  all: apply setAuthUser_same; rewrite ?setPhones_authUser; reflexivity.
Qed.

Lemma setAuthUser_failed_load_not_retried_witness :
  let res :=
    run (actions.dispatch scenario.offline (ASetAuthUser (Some scenario.u1)))
        (scenario.fresh []) in
  let again :=
    run (actions.dispatch scenario.offline (ASetAuthUser (Some scenario.u1)))
        (fst res) in
  authUser (store (fst res)) = Some scenario.u1 /\
  user (store (fst res)) = None /\
  issued (fst again) = issued (fst res) /\
  store (fst again) = store (fst res).
Proof.
  cbv zeta.
  destruct (setAuthUser_failed_load_not_retried scenario.offline
              (scenario.fresh []) scenario.u1 scenario.refused
              ltac:(discriminate) eq_refl)
    as (_ & Hauth & Huser & _ & _ & _ & Hstore).
  split; [exact Hauth | split; [exact Huser | split; [reflexivity|]]].
  exact Hstore.
Defined.

(** ** The new-message page as a whole *)

(** X17. Whatever the server answers, [sendMessage] of the page posts one
    request, made of the phone-number input, the owner of the store and the
    content input; the form is marked as sending while the request is
    pending and never after; the inputs are not changed.  The page shows
    "Message Sent!" and goes to the threads exactly when the request is
    accepted.  An error without a response ends the chain rejected, with
    no field error shown. *)
Theorem page_sendMessage_spec (this : messages_page.Data)
    (getOwner : option string) (result : messages_page.PostResult) :
  let pending := fst (messages_page.sendMessage_begin this getOwner) in
  let body :=
    {| messages_page.to := messages_page.formPhoneNumber this;
       messages_page.from := getOwner;
       messages_page.content := messages_page.formContent this |} in
  let '(this', effects, rejected) :=
    messages_page.sendMessage this getOwner result in
  messages_page.sending pending = true /\
  messages_page.errors pending = ∅ /\
  messages_page.sending this' = false /\
  messages_page.formPhoneNumber this' = messages_page.formPhoneNumber this /\
  messages_page.formContent this' = messages_page.formContent this /\
  (exists others,
     effects = messages_page.Post body :: others /\
     forall b, ~ In (messages_page.Post b) others) /\
  (In (messages_page.RouterPush "threads") effects <->
   result = messages_page.Accepted) /\
  (result = messages_page.Accepted ->
   effects =
     [messages_page.Post body;
      messages_page.Dispatch
        (messages_page.mkDispatched (Some "Message Sent!") success);
      messages_page.RouterPush "threads"] /\
   messages_page.errors this' = ∅ /\ rejected = false) /\
  (result = messages_page.Refused None ->
   effects = [messages_page.Post body] /\
   messages_page.errors this' = ∅ /\ rejected = true) /\
  (forall data, result = messages_page.Refused (Some data) ->
   rejected = false /\
   this' =
     messages_page.sendMessage_finally
       (fst (messages_page.sendMessage_catch pending data))).
Proof.
  cbv zeta. destruct result as [|[data|]]; cbn.
  - repeat (split; [reflexivity|]).
    split; [eexists; split; [reflexivity|]|].
    + intros b. cbn. intuition discriminate.
    + split; [split; [reflexivity | auto 6]|].
      split; [auto|]. split; [discriminate|]. intros data [=].
  - repeat (split; [reflexivity|]).
    split; [eexists; split; [reflexivity|]|].
    + intros b Hin. apply in_map_iff in Hin as (d & [=] & _).
    + split; [split; [|discriminate]|].
      * intros [[=]|Hin]. apply in_map_iff in Hin as (d & [=] & _).
      * split; [discriminate|]. split; [discriminate|].
        intros data' [= <-]. auto.
  - repeat (split; [reflexivity|]).
    split; [eexists; split; [reflexivity|]|].
    + intros b [].
    + split; [split; [|discriminate]|].
      * intros [[=]|[]].
      * split; [discriminate|]. split; [auto|]. intros data [=].
Qed.

(** X18. After a refused request the page shows field errors for [content]
    and [to] only, and only those of this answer: the [content] errors are
    shown as the server sent them, without any rewriting; a field is marked
    exactly when the answer lists it, even with an empty list of
    messages; errors shown before are dropped. *)
Theorem sendMessage_catch_fields (this : messages_page.Data)
    (data : ValidationErrors.t) :
  let shown := fst (messages_page.sendMessage_catch this data) in
  messages_page.field_error_messages shown "content"
    = ValidationErrors.content data /\
  (messages_page.field_has_error shown "content" = true <->
   ValidationErrors.content data <> None) /\
  (messages_page.field_has_error shown "to" = true <->
   ValidationErrors.to data <> None) /\
  (ValidationErrors.to data = Some [] ->
   messages_page.field_has_error shown "to" = true /\
   messages_page.field_error_messages shown "to" = Some []) /\
  (forall field, field <> "content" -> field <> "to" ->
     messages_page.field_error_messages shown field = None) /\
  (forall stale,
     messages_page.errors
       (fst (messages_page.sendMessage_catch
               (messages_page.mkData (messages_page.sending this)
                  (messages_page.formPhoneNumber this)
                  (messages_page.formContent this) stale) data))
     = messages_page.errors shown).
Proof.
  cbv zeta.
  unfold messages_page.field_has_error, messages_page.field_error_messages,
    messages_page.sendMessage_catch.
  cbn [fst messages_page.errors messages_page.sending
       messages_page.formPhoneNumber messages_page.formContent].
  destruct (ValidationErrors.content data) as [c|],
           (ValidationErrors.to data) as [t|].
  all: repeat rewrite lookup_insert_eq.
  all: repeat (rewrite lookup_insert_ne by discriminate).
  all: repeat rewrite lookup_insert_eq.
  all: rewrite ?lookup_empty.
  all: split; [reflexivity|].
  all: split; [split; congruence|].
  all: split; [split; congruence|].
  all: split; [try discriminate; intros [= ->]; auto|].
  all: split; [|reflexivity].
  all: intros field Hc Ht.
  all: repeat (rewrite lookup_insert_ne by congruence).
  all: apply lookup_empty.
Qed.

(** X19. A refused request with [from] errors gives exactly one
    notification, of type [error], however many errors are listed: the
    first one is its message and the others are dropped; for an empty list
    the message is undefined.  Without [from] errors nothing is
    dispatched. *)
Theorem sendMessage_catch_notification (this : messages_page.Data)
    (data : ValidationErrors.t) :
  let sent := snd (messages_page.sendMessage_catch this data) in
  (forall listed,
     ValidationErrors.from data = Some listed ->
     sent = [messages_page.mkDispatched (hd_error listed) error]) /\
  (ValidationErrors.from data = Some [] ->
   sent = [messages_page.mkDispatched None error]) /\
  (sent = [] <-> ValidationErrors.from data = None) /\
  (length sent <= 1)%nat.
Proof.
  cbv zeta. unfold messages_page.sendMessage_catch. cbn [snd].
  destruct (ValidationErrors.from data) as [[|f fs]|]; cbn.
  all: repeat split; try congruence; try lia.
  all: intros listed [= <-]; reflexivity.
Qed.

Lemma getActivePhone_of_owner (s : State) (n : string) :
  owner s = Some n ->
  (exists ph, In ph (phones s) /\ Phone.phone_number ph = n) ->
  exists phone, getters.getActivePhone s = Some phone /\ In phone (phones s).
Proof.
  intros Ho (ph & Hin & Hn). unfold getters.getActivePhone. rewrite Ho.
  destruct (find _ (phones s)) as [m|] eqn:Hfind.
  - exists m. split; [reflexivity|].
    apply (find_strict_eq_some Phone.phone_number) in Hfind. apply Hfind.
  - exfalso. rewrite find_strict_eq_none in Hfind.
    apply (Hfind ph Hin). congruence.
Qed.

Lemma setPhones_owner_listed (s : State) (first : Phone.t)
    (others : list Phone.t) :
  exists ph,
    In ph (first :: others) /\
    owner (mutations.setPhones s (first :: others))
      = Some (Phone.phone_number ph).
Proof.
  unfold mutations.setPhones. cbn [phones set_phones owner].
  destruct (find _ (first :: others)) as [m|] eqn:Hfind.
  - apply (find_strict_eq_some Phone.phone_number) in Hfind as [Hin Ho].
    exists m. auto.
  - exists first. split; [left; reflexivity | reflexivity].
Qed.

Lemma getActivePhone_setUser (s : State) (u : option User.t) :
  getters.getActivePhone (mutations.setUser s u) = getters.getActivePhone s.
Proof. reflexivity. Qed.

Lemma getActivePhone_setOwner_listed (s : State) (l : list Phone.t)
    (ph : Phone.t) :
  phones s = l ->
  In ph l ->
  exists phone,
    getters.getActivePhone (mutations.setOwner s (Phone.phone_number ph))
      = Some phone /\
    In phone l.
Proof.
  intros <- Hin.
  destruct (getActivePhone_of_owner
              (mutations.setOwner s (Phone.phone_number ph))
              (Phone.phone_number ph) eq_refl) as (phone & Hp & Hl).
  - exists ph. split; [exact Hin | reflexivity].
  - exists phone. split; [exact Hp | exact Hl].
Qed.

Lemma getActivePhone_setPhones_listed (s : State) (first : Phone.t)
    (others : list Phone.t) :
  exists phone,
    getters.getActivePhone (mutations.setPhones s (first :: others))
      = Some phone /\
    In phone (first :: others).
Proof.
  destruct (setPhones_owner_listed s first others) as (ph & Hin & Ho).
  destruct (getActivePhone_of_owner _ _ Ho) as (phone & Hp & Hl).
  - exists ph. rewrite setPhones_phones. auto.
  - exists phone. rewrite setPhones_phones in Hl. auto.
Qed.

(** X21. A sign-in that loads at least one phone always ends with an
    active phone: when the identity changes, no phones are cached, and the
    profile and a non-empty phone collection are answered, then after
    [setAuthUser], in every schedule and whether or not the update of the
    profile is accepted, [getActivePhone] is one of the loaded phones. *)
Theorem setAuthUser_selects_active_phone (axios : Gateway) (w : World)
    (a : AuthUser.t) (profile : User.t) (first : Phone.t)
    (others : list Phone.t) :
  option_map AuthUser.id (Some a)
    <> option_map AuthUser.id (authUser (store w)) ->
  phones (store w) = [] ->
  users_me axios (issued w) = inr profile ->
  phones_list axios (S (issued w)) 100 = inr (first :: others) ->
  let res := run (actions.dispatch axios (ASetAuthUser (Some a))) w in
  phones (store (fst res)) = first :: others /\
  exists phone,
    getters.getActivePhone (store (fst res)) = Some phone /\
    In phone (first :: others).
Proof.
  destruct w as [st jr n sch rs]. cbn [store issued].
  intros Hneq Hph Huser Hloaded.
  apply strict_neq_opt_true in Hneq. cbn in Hneq. cbv zeta.
  unfold_task. unfold getters.getAuthUser, getters.getPhones.
  rewrite Hneq. cbn. rewrite Hph. cbn.
  repeat first
    [ progress rewrite_known
    | rewrite (find_preferred_phone_loaded _ (first :: others) profile)
        by (cbn; rewrite ?setPhones_phones, ?setPhones_user; cbn;
            congruence)
    | progress (unfold pick; cbn -[find In])
    | case_scrutinee; cbn -[find In]; try discriminate ].
  all: split; [cbn; rewrite ?setPhones_phones; reflexivity|].
  all: rewrite ?getActivePhone_setUser.
  all: first
    [ apply getActivePhone_setPhones_listed
    | eapply (getActivePhone_setOwner_listed _ (first :: others));
      [ cbn; rewrite ?setPhones_phones; reflexivity
      | eapply find_some; eassumption ] ].
Qed.

Lemma setAuthUser_selects_active_phone_witness :
  let res :=
    run (actions.dispatch scenario.service (ASetAuthUser (Some scenario.u1)))
        (scenario.fresh [false]) in
  phones (store (fst res)) = [scenario.phoneA; scenario.phoneB] /\
  exists phone,
    getters.getActivePhone (store (fst res)) = Some phone /\
    In phone [scenario.phoneA; scenario.phoneB].
Proof.
  cbv zeta.
  apply (setAuthUser_selects_active_phone scenario.service
           (scenario.fresh [false]) scenario.u1 scenario.profile
           scenario.phoneA [scenario.phoneB]);
    [discriminate | reflexivity | reflexivity | reflexivity].
Defined.

(** X20. When the server refuses the update of the profile, [setOwner] is
    rejected but the owner is switched all the same: the new owner and the
    re-armed flags stay, the cached profile keeps its former active phone,
    and nothing undoes the commit. *)
Theorem setOwner_update_rejected (axios : Gateway) (w : World) (o : string)
    (phone : Phone.t) (e : Exn) :
  getters.getActivePhone (mutations.setOwner (store w) o) = Some phone ->
  users_me_put axios (issued w) (Phone.id phone) = inl e ->
  let res := run (actions.dispatch axios (ASetOwner o)) w in
  snd res = Rejected e /\
  events_since w (fst res) =
    [EDispatch (ASetOwner o); ECommit (MSetOwner o);
     ERequest (PUT_users_me (Phone.id phone))] /\
  store (fst res) = mutations.setOwner (store w) o /\
  owner (store (fst res)) = Some o /\
  user (store (fst res)) = user (store w).
Proof.
  destruct w as [st jr n sch rs]. cbn [store issued]. intros Hphone Hput.
  cbv zeta. unfold_task. unfold getters.getActivePhone in *.
  cbn in Hphone. cbn. rewrite Hphone. cbn. rewrite Hput. cbn.
  journal_normal. auto.
Qed.

Lemma setOwner_update_rejected_witness :
  let res :=
    run (actions.dispatch scenario.offline (ASetOwner "+1B"))
        (scenario.thread_open []) in
  snd res = Rejected scenario.refused /\
  owner (store (fst res)) = Some "+1B" /\
  user (store (fst res)) = None.
Proof.
  cbv zeta.
  destruct (setOwner_update_rejected scenario.offline
              (scenario.thread_open []) "+1B" scenario.phoneB
              scenario.refused eq_refl eq_refl)
    as (Hout & _ & _ & Howner & Huser).
  split; [exact Hout | split; [exact Howner | exact Huser]].
Defined.
